(** * Session user-profile store and LLM tools of [src/agent.py]

    The first-party logic of the voice agent is a small mutable record
    ([UserData]) with two accessors and three tool functions of the
    [Assistant] class that wrap them.  The accessors call [uuid.uuid4] and one
    tool calls [logger.info], so every operation is a computation in a state
    monad over a [World]: the session's [UserData] object, the number of
    identifiers drawn so far from the UUID source, and the records handed to
    the logger.  The two tools that put the age into an f-string end in a
    [result]: formatting an [int] raises [ValueError] when it has more
    decimal digits than the interpreter converts. *)

From Stdlib Require Import ZArith String Ascii List Bool Lia FinFun.
From Stdlib Require Import DecimalString DecimalZ DecimalPos.
From ExtLib Require Import Structures.Monad Structures.MonadState.
From ExtLib Require Import Data.Monads.StateMonad.
Import ListNotations.
Import MonadNotation.
Local Open Scope monad_scope.
Local Open Scope string_scope.

(** ** Python values *)

(** The exception the operations can raise. *)
Inductive exn : Type := ValueError.

(** The outcome of an expression or a call that can raise. *)
Inductive result (A : Type) : Type :=
| Returns (a : A)
| Raises (e : exn).
Arguments Returns {A}.
Arguments Raises {A}.

Definition result_map {A B : Type} (f : A -> B) (r : result A) : result B :=
  match r with
  | Returns a => Returns (f a)
  | Raises e => Raises e
  end.

(** The decimal digits of an integer, with a leading [-] for a negative
    number and ["0"] for zero. *)
Definition decimal (n : Z) : string := NilZero.string_of_int (Z.to_int n).

(** CPython's default [sys.int_max_str_digits]; the program does not change
    it. *)
Definition int_max_str_digits : Z := 4300.

(** The least absolute value whose decimal form has more than
    [int_max_str_digits] digits. *)
Definition int_str_bound : Z := 10 ^ int_max_str_digits.

(** [str(n)] and [f"{n}"] for an [int]: the decimal digits, and [ValueError]
    for an integer of more than [int_max_str_digits] digits (the sign is not
    counted). *)
Definition str_int (n : Z) : result string :=
  if (Z.abs n <? int_str_bound)%Z then Returns (decimal n) else Raises ValueError.

(** [f"{v}"] for a value of type [int | None]. *)
Definition format_opt_int (v : option Z) : result string :=
  match v with
  | Some n => str_int n
  | None => Returns "None"
  end.

(** Truth value of a [str] in a condition: the empty string is false. *)
Definition truthy (s : string) : bool :=
  match s with
  | EmptyString => false
  | String _ _ => true
  end.

(** [v is not None]. *)
Definition is_not_None {A : Type} (v : option A) : bool :=
  match v with
  | Some _ => true
  | None => false
  end.

(** A UUID source for concrete runs: the [k]-th identifier is ["id"] followed
    by [k] strokes. *)
Fixpoint strokes (k : nat) : string :=
  match k with
  | O => EmptyString
  | S k' => String "|" (strokes k')
  end.

Definition counter_uuid (k : nat) : string := "id" ++ strokes k.

(** ** The dataclasses *)

Module UserInfo.
(** [class UserInfo]: [id: str], [name: str], [age: int | None]. *)
Record t : Type := mk { id : string; name : string; age : option Z }.
End UserInfo.

Module UserData.
Section Fields.
Variable JobContext : Type.

(** [class UserData]: [ctx: Optional[JobContext]], [name: str], [age: int].
    The annotation of [age] is [int], but [get_user_info] reads the slot with
    [self.age is not None]; the slot is therefore modelled as one that can
    hold [None], and that it never does is a property of the reachable
    states, not of the type. *)
Record t : Type := mk { ctx : option JobContext; name : string; age : option Z }.

(** [UserData(ctx=c)]: [name] and [age] take their [default_factory],
    [str() = ""] and [int() = 0]. *)
Definition init (c : option JobContext) : t :=
  {| ctx := c; name := ""; age := Some 0%Z |}.
End Fields.
Arguments mk {JobContext}.
Arguments ctx {JobContext}.
Arguments name {JobContext}.
Arguments age {JobContext}.
Arguments init {JobContext}.
End UserData.

(** ** The world the operations run in *)

Section World.
Variable JobContext : Type.

(** [userdata] is the object reached through [context.userdata]; [uuid_calls]
    counts the calls of [uuid.uuid4] made so far; [log] holds the messages
    passed to [logger.info], oldest first. *)
Record World : Type := mkWorld {
  userdata : UserData.t JobContext;
  uuid_calls : nat;
  log : list string
}.
End World.
Arguments mkWorld {JobContext}.
Arguments userdata {JobContext}.
Arguments uuid_calls {JobContext}.
Arguments log {JobContext}.

Section Program.
Variable JobContext : Type.

(** The UUID source: [uuid4 k] is the text of the identifier that the
    [k]-th call of [str(uuid.uuid4())] yields. *)
Variable uuid4 : nat -> string.

Local Notation "'world'" := (World JobContext).
Local Notation "'M'" := (state (World JobContext)).

(** [str(uuid.uuid4())] *)
Definition fresh_uuid : M string :=
  w <- get ;;
  put (mkWorld (userdata w) (S (uuid_calls w)) (log w)) ;;
  ret (uuid4 (uuid_calls w)).

(** [logger.info(msg)] *)
Definition logger_info (msg : string) : M unit :=
  w <- get ;;
  put (mkWorld (userdata w) (uuid_calls w) (log w ++ [msg])).

(** Reading and assigning the attributes of [self]. *)
Definition self : M (UserData.t JobContext) :=
  w <- get ;; ret (userdata w).

Definition assign_name (n : string) : M unit :=
  w <- get ;;
  put (mkWorld (UserData.mk (UserData.ctx (userdata w)) n (UserData.age (userdata w)))
               (uuid_calls w) (log w)).

Definition assign_age (a : option Z) : M unit :=
  w <- get ;;
  put (mkWorld (UserData.mk (UserData.ctx (userdata w)) (UserData.name (userdata w)) a)
               (uuid_calls w) (log w)).

(** [UserData.set_user_info]; [age] is an [int], as the signature and the
    schema of the [set_user_data] tool have it. *)
Definition set_user_info (name : string) (age : Z) : M UserInfo.t :=
  i <- fresh_uuid ;;
  let user_info := UserInfo.mk i name (Some age) in
  assign_name name ;;
  assign_age (Some age) ;;
  ret user_info.

(** [UserData.get_user_info] *)
Definition get_user_info : M (option UserInfo.t) :=
  d <- self ;;
  if truthy (UserData.name d) && is_not_None (UserData.age d) then
    i <- fresh_uuid ;;
    ret (Some (UserInfo.mk i (UserData.name d) (UserData.age d)))
  else
    ret None.

(** [Assistant.lookup_weather] *)
Definition lookup_weather (location : string) : M string :=
  logger_info ("Looking up weather for " ++ location) ;;
  ret "sunny with a temperature of 70 degrees.".

(** [Assistant.set_user_data]; the f-string is evaluated after the profile
    has been stored, and raises when formatting the age does. *)
Definition set_user_data (name : string) (age : Z) : M (result string) :=
  _ <- set_user_info name age ;;
  ret (result_map
         (fun age_text =>
            "Okay, now I will remember your name is " ++ name
            ++ " and you are " ++ age_text ++ " year old.")
         (str_int age)).

(** [Assistant.get_user_data]; an instance of a dataclass is always true
    in a condition, so [if user_info:] tests for [None] only. *)
Definition get_user_data : M (result string) :=
  user_info <- get_user_info ;;
  match user_info with
  | Some u =>
      ret (result_map
             (fun age_text =>
                "Your name: " ++ UserInfo.name u ++ " and your age: " ++ age_text)
             (format_opt_int (UserInfo.age u)))
  | None =>
      ret (Returns "I don't know your name. Please introduce your name and your age")
  end.

(** [UserData(ctx=ctx)] as [entrypoint] builds it, in a process that has
    already drawn [k] identifiers and logged [l]. *)
Definition fresh_session (c : option JobContext) (k : nat) (l : list string) : world :=
  mkWorld (UserData.init c) k l.

(** ** Sequences of calls

    The runtime invokes the tools one at a time on the session, and the two
    accessors are public methods of the session object.  [Op] names one call
    and [Ret] is how it ends.  A tool that raises ends its own call only: the
    session object keeps what the call had stored, and later calls run on
    it. *)

Inductive Op : Type :=
| SetUserInfo (name : string) (age : Z)
| GetUserInfo
| LookupWeather (location : string)
| SetUserData (name : string) (age : Z)
| GetUserData.

Inductive Ret : Type :=
| RetUserInfo (u : UserInfo.t)
| RetOptUserInfo (u : option UserInfo.t)
| RetStr (s : string)
| RetOutcome (r : result string).

Definition call (o : Op) : M Ret :=
  match o with
  | SetUserInfo name age => u <- set_user_info name age ;; ret (RetUserInfo u)
  | GetUserInfo => u <- get_user_info ;; ret (RetOptUserInfo u)
  | LookupWeather location => s <- lookup_weather location ;; ret (RetStr s)
  | SetUserData name age => r <- set_user_data name age ;; ret (RetOutcome r)
  | GetUserData => r <- get_user_data ;; ret (RetOutcome r)
  end.

Fixpoint calls (os : list Op) : M (list Ret) :=
  match os with
  | [] => ret []
  | o :: os' => r <- call o ;; rs <- calls os' ;; ret (r :: rs)
  end.

(** The identifiers of the records a sequence of calls handed back. *)
Definition ids_of (r : Ret) : list string :=
  match r with
  | RetUserInfo u => [UserInfo.id u]
  | RetOptUserInfo (Some u) => [UserInfo.id u]
  | RetOptUserInfo None => []
  | RetStr _ => []
  | RetOutcome _ => []
  end.

Definition returned_ids (rs : list Ret) : list string := flat_map ids_of rs.

(** Calls that store a profile. *)
Definition is_set (o : Op) : bool :=
  match o with
  | SetUserInfo _ _ | SetUserData _ _ => true
  | GetUserInfo | LookupWeather _ | GetUserData => false
  end.

(** The worlds a session can be in: the one [entrypoint] creates, and any
    world a call leads to from there. *)
Inductive reachable : world -> Prop :=
| reachable_fresh c k l : reachable (fresh_session c k l)
| reachable_call w o : reachable w -> reachable (execState (call o) w).

(** ** Histories

    What a sequence of calls leaves behind is read off the sequence itself:
    the messages its weather lookups log, the arguments of its last set, and
    how many of its calls are sets or can draw an identifier at all. *)

(** The message a call passes to [logger.info], if it logs. *)
Definition logged_by (o : Op) : list string :=
  match o with
  | LookupWeather location => ["Looking up weather for " ++ location]
  | SetUserInfo _ _ | GetUserInfo | SetUserData _ _ | GetUserData => []
  end.

(** The arguments of a call that stores a profile. *)
Definition set_args (o : Op) : option (string * Z) :=
  match o with
  | SetUserInfo name age | SetUserData name age => Some (name, age)
  | GetUserInfo | LookupWeather _ | GetUserData => None
  end.

(** The arguments of the last set of a sequence of calls. *)
Fixpoint last_set (os : list Op) : option (string * Z) :=
  match os with
  | [] => None
  | o :: os' =>
      match last_set os' with
      | Some p => Some p
      | None => set_args o
      end
  end.

(** Calls whose body reaches [uuid.uuid4] on some path. *)
Definition may_draw (o : Op) : bool :=
  match o with
  | LookupWeather _ => false
  | SetUserInfo _ _ | GetUserInfo | SetUserData _ _ | GetUserData => true
  end.

(** ** Running the operations *)

Lemma run_bind {A B : Type} (c : M A) (f : A -> M B) (w : world) :
  runState (bind c f) w = runState (f (fst (runState c w))) (snd (runState c w)).
Proof. simpl. destruct (runState c w); reflexivity. Qed.

Lemma run_set_user_info (n : string) (a : Z) (w : world) :
  runState (set_user_info n a) w =
  (UserInfo.mk (uuid4 (uuid_calls w)) n (Some a),
   mkWorld (UserData.mk (UserData.ctx (userdata w)) n (Some a))
           (S (uuid_calls w)) (log w)).
Proof. reflexivity. Qed.

Lemma run_get_user_info (w : world) :
  runState get_user_info w =
  if truthy (UserData.name (userdata w)) && is_not_None (UserData.age (userdata w))
  then (Some (UserInfo.mk (uuid4 (uuid_calls w)) (UserData.name (userdata w))
                          (UserData.age (userdata w))),
        mkWorld (userdata w) (S (uuid_calls w)) (log w))
  else (None, w).
Proof.
  unfold get_user_info. rewrite run_bind. simpl.
  destruct (truthy _ && is_not_None _); reflexivity.
Qed.


Lemma run_get_user_data (w : world) :
  runState get_user_data w =
  if truthy (UserData.name (userdata w)) && is_not_None (UserData.age (userdata w))
  then (result_map
          (fun age_text =>
             "Your name: " ++ UserData.name (userdata w)
             ++ " and your age: " ++ age_text)
          (format_opt_int (UserData.age (userdata w))),
        mkWorld (userdata w) (S (uuid_calls w)) (log w))
  else (Returns "I don't know your name. Please introduce your name and your age", w).
Proof.
  unfold get_user_data. rewrite run_bind, run_get_user_info.
  destruct (truthy _ && is_not_None _); reflexivity.
Qed.

Lemma run_set_user_data (n : string) (a : Z) (w : world) :
  runState (set_user_data n a) w =
  (result_map
     (fun age_text =>
        "Okay, now I will remember your name is " ++ n
        ++ " and you are " ++ age_text ++ " year old.")
     (str_int a),
   snd (runState (set_user_info n a) w)).
Proof. reflexivity. Qed.

Lemma str_int_fits (a : Z) :
  (Z.abs a < int_str_bound)%Z -> str_int a = Returns (decimal a).
Proof.
  intros Ha. unfold str_int. apply Z.ltb_lt in Ha. now rewrite Ha.
Qed.

Lemma str_int_too_long (a : Z) :
  (int_str_bound <= Z.abs a)%Z -> str_int a = Raises ValueError.
Proof.
  intros Ha. unfold str_int. apply Z.ltb_ge in Ha. now rewrite Ha.
Qed.

Lemma int_str_bound_pos : (0 < int_str_bound)%Z.
Proof. apply Z.pow_pos_nonneg; unfold int_max_str_digits; lia. Qed.

Lemma run_lookup_weather (location : string) (w : world) :
  runState (lookup_weather location) w =
  ("sunny with a temperature of 70 degrees.",
   mkWorld (userdata w) (uuid_calls w)
           (log w ++ ["Looking up weather for " ++ location])).
Proof. reflexivity. Qed.

Lemma truthy_nonempty (s : string) : truthy s = true <-> s <> "".
Proof. destruct s; simpl; split; congruence. Qed.

Lemma exec_calls_cons (o : Op) (os : list Op) (w : world) :
  execState (calls (o :: os)) w = execState (calls os) (execState (call o) w).
Proof.
  unfold execState. cbn [calls]. rewrite run_bind. cbv beta.
  rewrite run_bind. reflexivity.
Qed.

Lemma eval_calls_cons (o : Op) (os : list Op) (w : world) :
  evalState (calls (o :: os)) w =
  evalState (call o) w :: evalState (calls os) (execState (call o) w).
Proof.
  unfold evalState, execState. cbn [calls]. rewrite run_bind. cbv beta.
  rewrite run_bind. reflexivity.
Qed.

(** A call that is not a set leaves the session object as it was. *)
Lemma call_read_userdata (o : Op) (w : world) :
  is_set o = false -> userdata (execState (call o) w) = userdata w.
Proof.
  unfold execState.
  destruct o; cbn [call]; intros Hset; try discriminate; rewrite run_bind.
  - rewrite run_get_user_info. destruct (truthy _ && is_not_None _); reflexivity.
  - reflexivity.
  - rewrite run_get_user_data. destruct (truthy _ && is_not_None _); reflexivity.
Qed.

Lemma calls_read_userdata (os : list Op) (w : world) :
  Forall (fun o => is_set o = false) os ->
  userdata (execState (calls os) w) = userdata w.
Proof.
  intros Hos. revert w.
  induction Hos as [|o os Ho _ IH]; intros w.
  - reflexivity.
  - rewrite exec_calls_cons, IH. now apply call_read_userdata.
Qed.

(** A call hands back at most one record; its identifier is the next one of
    the UUID source, which the call has then consumed. *)
Lemma call_ids (o : Op) (w : world) :
  (ids_of (evalState (call o) w) = []
   /\ uuid_calls w <= uuid_calls (execState (call o) w))
  \/ (ids_of (evalState (call o) w) = [uuid4 (uuid_calls w)]
      /\ uuid_calls w < uuid_calls (execState (call o) w)).
Proof.
  unfold evalState, execState.
  destruct o; cbn [call]; rewrite run_bind.
  - right. simpl. auto.
  - rewrite run_get_user_info.
    destruct (truthy _ && is_not_None _); simpl; auto.
  - left. simpl. auto.
  - left. simpl. auto.
  - rewrite run_get_user_data.
    destruct (truthy _ && is_not_None _); simpl; auto.
Qed.

Lemma calls_ids (os : list Op) (w : world) :
  exists ks : list nat,
    returned_ids (evalState (calls os) w) = map uuid4 ks
    /\ NoDup ks
    /\ Forall (fun k => uuid_calls w <= k) ks.
Proof.
  revert w. induction os as [|o os IH]; intros w.
  - exists []. repeat split; constructor.
  - rewrite eval_calls_cons. unfold returned_ids. simpl flat_map.
    destruct (IH (execState (call o) w)) as (ks & Hids & Hnd & Hlo).
    fold (returned_ids (evalState (calls os) (execState (call o) w))).
    rewrite Hids.
    destruct (call_ids o w) as [[-> Hle] | [-> Hlt]].
    + exists ks. repeat split; auto.
      eapply Forall_impl; [|exact Hlo]. simpl. intros k Hk. lia.
    + exists (uuid_calls w :: ks). repeat split.
      * constructor; auto. intros Hin.
        rewrite Forall_forall in Hlo. specialize (Hlo _ Hin). lia.
      * constructor; [lia|].
        eapply Forall_impl; [|exact Hlo]. simpl. intros k Hk. lia.
Qed.

(** In a reachable world the [age] slot holds an integer. *)
Lemma reachable_age (w : world) :
  reachable w -> exists a : Z, UserData.age (userdata w) = Some a.
Proof.
  induction 1 as [c k l | w o _ IH].
  - exists 0%Z. reflexivity.
  - destruct (is_set o) eqn:Hset.
    + destruct o; try discriminate; exists age; reflexivity.
    + rewrite call_read_userdata by assumption. exact IH.
Qed.


(** ** The specification's properties *)

(** C1: for a non-empty name [n] and any age [a], zero included, a set
    followed by a get on the same session returns a present profile whose name
    is [n] and whose age is [a]. *)
Theorem set_then_get (n : string) (a : Z) (w : world) :
  n <> "" ->
  exists u : UserInfo.t,
    evalState (_ <- set_user_info n a ;; get_user_info) w = Some u
    /\ UserInfo.name u = n
    /\ UserInfo.age u = Some a.
Proof.
  intros Hn. apply truthy_nonempty in Hn.
  unfold evalState. rewrite run_bind. cbv beta.
  rewrite run_set_user_info, run_get_user_info. cbn [fst snd userdata UserData.name UserData.age].
  rewrite Hn. cbn.
  eexists. repeat split.
Qed.

(** C2: on the session [entrypoint] creates (empty name, age 0), before any
    set, [get_user_info] returns [None] and the [get_user_data] tool returns
    its fixed request-for-introduction text as an ordinary result. *)
Theorem get_before_set (c : option JobContext) (k : nat) (l : list string) :
  runState get_user_info (fresh_session c k l) = (None, fresh_session c k l)
  /\ runState get_user_data (fresh_session c k l) =
     (Returns "I don't know your name. Please introduce your name and your age",
      fresh_session c k l).
Proof.
  rewrite run_get_user_info, run_get_user_data. split; reflexivity.
Qed.

(** C3: set is last-write-wins.  After [set_user_info n1 a1] and then
    [set_user_info n2 a2], from any world, the session stores [n2] and [a2],
    and what a following [get_user_info] returns is built from [n2] and [a2]
    alone; both sets return their record whatever the arguments. *)
Theorem set_twice_overwrites (n1 n2 : string) (a1 a2 : Z) (w : world) :
  let w1 := execState (set_user_info n1 a1) w in
  let w2 := execState (set_user_info n2 a2) w1 in
  evalState (set_user_info n1 a1) w = UserInfo.mk (uuid4 (uuid_calls w)) n1 (Some a1)
  /\ evalState (set_user_info n2 a2) w1 = UserInfo.mk (uuid4 (uuid_calls w1)) n2 (Some a2)
  /\ userdata w2 = UserData.mk (UserData.ctx (userdata w)) n2 (Some a2)
  /\ evalState get_user_info w2 =
     if truthy n2 then Some (UserInfo.mk (uuid4 (uuid_calls w2)) n2 (Some a2))
     else None.
Proof.
  cbv zeta. unfold evalState, execState.
  rewrite !run_set_user_info, run_get_user_info.
  cbn [fst snd userdata uuid_calls UserData.name UserData.age UserData.ctx is_not_None].
  rewrite andb_true_r. repeat split.
  destruct (truthy n2); reflexivity.
Qed.

(** C4: [lookup_weather] returns the same fixed text for every location, the
    empty one included, in every world; no other result exists. *)
Theorem lookup_weather_constant (location : string) (w : world) :
  evalState (lookup_weather location) w = "sunny with a temperature of 70 degrees."
  /\ evalState (lookup_weather location) w = evalState (lookup_weather "") w
  /\ userdata (execState (lookup_weather location) w) = userdata w.
Proof.
  unfold evalState, execState. rewrite !run_lookup_weather.
  repeat split.
Qed.


(** C6, as amended: [get_user_data] has three outcomes.  When
    [get_user_info] returns [None] the tool returns the fixed
    request-for-introduction text, and it returns that text in no other case.
    When [get_user_info] returns a record, the tool returns the text showing
    the stored name and age if the age has at most [int_max_str_digits]
    decimal digits, and raises [ValueError] if it has more. *)
Theorem get_user_data_cases (w : world) :
  match evalState get_user_info w with
  | Some u =>
      exists a : Z,
        UserData.age (userdata w) = Some a
        /\ UserInfo.name u = UserData.name (userdata w)
        /\ UserInfo.age u = Some a
        /\ evalState get_user_data w =
           if (Z.abs a <? int_str_bound)%Z
           then Returns ("Your name: " ++ UserData.name (userdata w)
                         ++ " and your age: " ++ decimal a)
           else Raises ValueError
  | None =>
      evalState get_user_data w =
        Returns "I don't know your name. Please introduce your name and your age"
  end
  /\ (evalState get_user_data w =
        Returns "I don't know your name. Please introduce your name and your age"
      <-> evalState get_user_info w = None).
Proof.
  unfold evalState. rewrite run_get_user_info, run_get_user_data.
  destruct (truthy _) eqn:Hn; cbn [andb].
  - destruct (UserData.age (userdata w)) as [a|] eqn:Ha;
      cbn [is_not_None fst format_opt_int].
    + unfold str_int.
      destruct (Z.abs a <? int_str_bound)%Z eqn:Hfit; cbn [result_map]; split.
      * exists a. rewrite Hfit. repeat split.
      * split; [intros H; inversion H | discriminate].
      * exists a. rewrite Hfit. repeat split.
      * split; discriminate.
    + split; [reflexivity | split; reflexivity].
  - cbn [fst]. split; [reflexivity | split; reflexivity].
Qed.

(** C7: with a UUID source that never repeats an identifier, the records
    handed back along any sequence of calls, from any world, carry pairwise
    distinct identifiers; in particular two successive reads of an unchanged
    profile return the same name and age under different identifiers. *)
Theorem returned_ids_fresh :
  (forall j k : nat, uuid4 j = uuid4 k -> j = k) ->
  (forall (os : list Op) (w : world),
      NoDup (returned_ids (evalState (calls os) w)))
  /\ (forall (w : world) (u1 u2 : UserInfo.t),
         evalState get_user_info w = Some u1 ->
         evalState get_user_info (execState get_user_info w) = Some u2 ->
         UserInfo.name u1 = UserInfo.name u2
         /\ UserInfo.age u1 = UserInfo.age u2
         /\ UserInfo.id u1 <> UserInfo.id u2).
Proof.
  intros Hinj. split.
  - intros os w.
    destruct (calls_ids os w) as (ks & -> & Hnd & _).
    apply Injective_map_NoDup; [exact Hinj | exact Hnd].
  - intros w u1 u2. unfold evalState, execState.
    rewrite !run_get_user_info.
    destruct (truthy _ && is_not_None _) eqn:Hc; cbn [fst snd]; [|discriminate].
    cbn [userdata uuid_calls]. rewrite Hc. cbn [fst].
    intros [= <-] [= <-]. cbn. repeat split.
    intros Heq. apply Hinj in Heq. lia.
Qed.

(** C8: in every reachable world the [age] slot holds an integer, so the test
    [self.age is not None] succeeds, the condition of [get_user_info] has the
    truth value of the name alone, and [get_user_info] returns a record
    exactly when the stored name is non-empty. *)
Theorem age_never_None (w : world) :
  reachable w ->
  (exists a : Z, UserData.age (userdata w) = Some a)
  /\ is_not_None (UserData.age (userdata w)) = true
  /\ truthy (UserData.name (userdata w)) && is_not_None (UserData.age (userdata w))
     = truthy (UserData.name (userdata w))
  /\ (evalState get_user_info w <> None <-> UserData.name (userdata w) <> "").
Proof.
  intros Hw. destruct (reachable_age w Hw) as [a Ha].
  split; [now exists a|].
  unfold evalState. rewrite run_get_user_info, Ha. cbn [is_not_None].
  rewrite andb_true_r. repeat split.
  - intros Hsome. apply truthy_nonempty.
    destruct (truthy _); [reflexivity | now elim Hsome].
  - intros Hn. apply truthy_nonempty in Hn. rewrite Hn. discriminate.
Qed.

(** C9: [set_user_info] changes the [name] and [age] of the session object
    and leaves its [ctx] as it was; [get_user_info] and [get_user_data] leave
    the whole session object as it was. *)
Theorem frame_userdata (n : string) (a : Z) (w : world) :
  userdata (execState (set_user_info n a) w)
    = UserData.mk (UserData.ctx (userdata w)) n (Some a)
  /\ userdata (execState get_user_info w) = userdata w
  /\ userdata (execState get_user_data w) = userdata w.
Proof.
  unfold execState. rewrite run_set_user_info, run_get_user_info, run_get_user_data.
  destruct (truthy _ && is_not_None _); repeat split.
Qed.

(** C10: a set with the empty name succeeds for every age and returns its
    record; the tool stores the same and answers with its confirmation (or
    [ValueError] when the age does not format); after it, and after any
    further calls that are not sets, [get_user_info] returns [None] and
    [get_user_data] returns the request-for-introduction text. *)
Theorem empty_name_reads_unset (a : Z) (w : world) (os : list Op) :
  Forall (fun o => is_set o = false) os ->
  let w' := execState (calls os) (execState (set_user_info "" a) w) in
  evalState (set_user_info "" a) w = UserInfo.mk (uuid4 (uuid_calls w)) "" (Some a)
  /\ evalState (set_user_data "" a) w =
       (if (Z.abs a <? int_str_bound)%Z
        then Returns ("Okay, now I will remember your name is  and you are "
                      ++ decimal a ++ " year old.")
        else Raises ValueError)
  /\ execState (set_user_data "" a) w = execState (set_user_info "" a) w
  /\ evalState get_user_info w' = None
  /\ evalState get_user_data w' =
       Returns "I don't know your name. Please introduce your name and your age".
Proof.
  intros Hos w'.
  assert (Hname : UserData.name (userdata w') = "").
  { unfold w'. rewrite calls_read_userdata by exact Hos. reflexivity. }
  repeat split; unfold evalState.
  - rewrite run_set_user_data. unfold str_int.
    destruct (Z.abs a <? int_str_bound)%Z; reflexivity.
  - rewrite run_get_user_info, Hname. reflexivity.
  - rewrite run_get_user_data, Hname. reflexivity.
Qed.

(** ** Properties of histories *)

Lemma call_log (o : Op) (w : world) :
  log (execState (call o) w) = (log w ++ logged_by o)%list.
Proof.
  unfold execState. destruct o; cbn [call logged_by]; rewrite run_bind.
  - cbn. now rewrite app_nil_r.
  - rewrite run_get_user_info.
    destruct (truthy _ && is_not_None _); cbn; now rewrite app_nil_r.
  - reflexivity.
  - cbn. now rewrite app_nil_r.
  - rewrite run_get_user_data.
    destruct (truthy _ && is_not_None _); cbn; now rewrite app_nil_r.
Qed.

Lemma call_userdata (o : Op) (w : world) :
  userdata (execState (call o) w) =
  match set_args o with
  | Some (n, a) => UserData.mk (UserData.ctx (userdata w)) n (Some a)
  | None => userdata w
  end.
Proof.
  destruct (is_set o) eqn:Hset.
  - destruct o; try discriminate; reflexivity.
  - rewrite call_read_userdata by exact Hset.
    destruct o; try discriminate; reflexivity.
Qed.

Lemma calls_userdata (os : list Op) (w : world) :
  userdata (execState (calls os) w) =
  match last_set os with
  | Some (n, a) => UserData.mk (UserData.ctx (userdata w)) n (Some a)
  | None => userdata w
  end.
Proof.
  revert w. induction os as [|o os IH]; intros w.
  - reflexivity.
  - rewrite exec_calls_cons, IH, call_userdata. cbn [last_set].
    destruct (last_set os) as [[n a]|].
    + destruct (set_args o) as [[n' a']|]; reflexivity.
    + reflexivity.
Qed.

Lemma call_draws (o : Op) (w : world) :
  uuid_calls w + (if is_set o then 1 else 0) <= uuid_calls (execState (call o) w)
  /\ uuid_calls (execState (call o) w) <= uuid_calls w + (if may_draw o then 1 else 0).
Proof.
  unfold execState. destruct o; cbn [call is_set may_draw]; rewrite run_bind.
  - cbn. lia.
  - rewrite run_get_user_info.
    destruct (truthy _ && is_not_None _); cbn; lia.
  - cbn. lia.
  - cbn. lia.
  - rewrite run_get_user_data.
    destruct (truthy _ && is_not_None _); cbn; lia.
Qed.

(** X1: after any sequence of calls the log is the log from before followed
    by one message per weather lookup, in call order, each naming the
    location asked for; the profile operations log nothing. *)
Theorem calls_log (os : list Op) (w : world) :
  log (execState (calls os) w) = (log w ++ flat_map logged_by os)%list.
Proof.
  revert w. induction os as [|o os IH]; intros w.
  - cbn. now rewrite app_nil_r.
  - rewrite exec_calls_cons, IH, call_log. cbn [flat_map].
    now rewrite app_assoc.
Qed.

(** X2: along any sequence of calls the count of identifiers drawn never
    goes down; every set draws one, and no call draws more than one, weather
    lookups drawing none. *)
Theorem calls_draws (os : list Op) (w : world) :
  uuid_calls w + length (filter is_set os) <= uuid_calls (execState (calls os) w)
  /\ uuid_calls (execState (calls os) w) <= uuid_calls w + length (filter may_draw os).
Proof.
  revert w. induction os as [|o os IH]; intros w.
  - cbn. lia.
  - rewrite exec_calls_cons.
    destruct (IH (execState (call o) w)) as [Hlo Hhi].
    destruct (call_draws o w) as [Hlo1 Hhi1].
    cbn [filter].
    destruct (is_set o); destruct (may_draw o); cbn [length]; lia.
Qed.

(** X3: when a sequence of calls contains a set, then whatever else it
    contains the session afterwards stores the arguments of its last set, and
    [get_user_info] returns a record of exactly that name and age when the
    name is non-empty and [None] when it is empty. *)
Theorem get_after_history (os : list Op) (n : string) (a : Z) (w : world) :
  last_set os = Some (n, a) ->
  let w' := execState (calls os) w in
  userdata w' = UserData.mk (UserData.ctx (userdata w)) n (Some a)
  /\ evalState get_user_info w' =
     if truthy n then Some (UserInfo.mk (uuid4 (uuid_calls w')) n (Some a))
     else None.
Proof.
  intros Hlast w'.
  assert (Hud : userdata w' = UserData.mk (UserData.ctx (userdata w)) n (Some a)).
  { unfold w'. rewrite calls_userdata, Hlast. reflexivity. }
  split; [exact Hud|].
  unfold evalState. rewrite run_get_user_info, Hud.
  cbn [UserData.name UserData.age is_not_None]. rewrite andb_true_r.
  destruct (truthy n); reflexivity.
Qed.

(** X4: no sequence of calls changes the [ctx] the session was created
    with. *)
Theorem calls_keep_ctx (os : list Op) (w : world) :
  UserData.ctx (userdata (execState (calls os) w)) = UserData.ctx (userdata w).
Proof.
  rewrite calls_userdata. destruct (last_set os) as [[n a]|]; reflexivity.
Qed.

(** X5: through the tools, a set with a non-empty name and an age of at
    most [int_max_str_digits] decimal digits, followed by a get, answers with
    the text that shows that name and that age in decimal, whatever the
    session held before. *)
Theorem set_user_data_then_get_user_data (n : string) (a : Z) (w : world) :
  n <> "" ->
  (Z.abs a < int_str_bound)%Z ->
  evalState (_ <- set_user_data n a ;; get_user_data) w =
  Returns ("Your name: " ++ n ++ " and your age: " ++ decimal a).
Proof.
  intros Hn Ha. apply truthy_nonempty in Hn.
  unfold evalState. rewrite run_bind. cbv beta.
  rewrite run_set_user_data, run_set_user_info, run_get_user_data.
  cbn [fst snd userdata UserData.name UserData.age is_not_None format_opt_int].
  rewrite Hn, (str_int_fits a Ha). reflexivity.
Qed.

(** X6: calls that are not sets do not change what the profile reads as:
    after any number of them [get_user_data] answers with the same text as
    before, and [get_user_info] returns the same name and age (or [None]) as
    before. *)
Theorem reads_do_not_disturb (os : list Op) (w : world) :
  Forall (fun o => is_set o = false) os ->
  let w' := execState (calls os) w in
  evalState get_user_data w' = evalState get_user_data w
  /\ option_map (fun u => (UserInfo.name u, UserInfo.age u)) (evalState get_user_info w')
     = option_map (fun u => (UserInfo.name u, UserInfo.age u)) (evalState get_user_info w).
Proof.
  intros Hos w'.
  assert (Hud : userdata w' = userdata w).
  { unfold w'. now apply calls_read_userdata. }
  unfold evalState.
  rewrite !run_get_user_data, !run_get_user_info, Hud.
  destruct (truthy _ && is_not_None _); split; reflexivity.
Qed.

(** X7: on a session created by [entrypoint], the outcome of
    [get_user_data] after any sequence of calls depends on the last set alone:
    the request-for-introduction text when there was no set or the last set
    had the empty name; otherwise the text showing the name and age of that
    last set, or [ValueError] when that age has more than
    [int_max_str_digits] decimal digits. *)
Theorem get_user_data_after_history
    (os : list Op) (c : option JobContext) (k : nat) (l : list string) :
  evalState get_user_data (execState (calls os) (fresh_session c k l)) =
  match last_set os with
  | Some (String x n, a) =>
      if (Z.abs a <? int_str_bound)%Z
      then Returns ("Your name: " ++ String x n ++ " and your age: " ++ decimal a)
      else Raises ValueError
  | Some (EmptyString, _) | None =>
      Returns "I don't know your name. Please introduce your name and your age"
  end.
Proof.
  unfold evalState. rewrite run_get_user_data, calls_userdata.
  destruct (last_set os) as [[[|x n] a]|]; try reflexivity.
  cbn [UserData.name UserData.age truthy is_not_None andb fst format_opt_int].
  unfold str_int. destruct (Z.abs a <? int_str_bound)%Z; reflexivity.
Qed.

(** X8: a [set_user_data] whose age has more than [int_max_str_digits]
    decimal digits raises [ValueError] only after the profile has been
    stored: the session then holds that name and age, [get_user_info] returns
    them when the name is non-empty, and [get_user_data] raises [ValueError]
    in turn. *)
Theorem long_age_is_stored_then_raises (n : string) (a : Z) (w : world) :
  (int_str_bound <= Z.abs a)%Z ->
  let w' := execState (set_user_data n a) w in
  evalState (set_user_data n a) w = Raises ValueError
  /\ userdata w' = UserData.mk (UserData.ctx (userdata w)) n (Some a)
  /\ (n <> "" ->
      evalState get_user_info w' = Some (UserInfo.mk (uuid4 (uuid_calls w')) n (Some a))
      /\ evalState get_user_data w' = Raises ValueError).
Proof.
  intros Ha w'. unfold w', evalState, execState.
  rewrite run_set_user_data, run_set_user_info, (str_int_too_long a Ha).
  repeat split;
    apply truthy_nonempty in H;
    [rewrite run_get_user_info | rewrite run_get_user_data];
    cbn [fst snd userdata uuid_calls UserData.name UserData.age is_not_None
         format_opt_int];
    rewrite H; [reflexivity|].
  rewrite (str_int_too_long a Ha). reflexivity.
Qed.

End Program.

(** ** Concrete runs *)

Lemma strokes_injective (j k : nat) : strokes j = strokes k -> j = k.
Proof.
  revert k. induction j as [|j IH]; destruct k as [|k]; simpl; intros H;
    try reflexivity; try discriminate.
  injection H as H. f_equal. now apply IH.
Qed.

Lemma counter_uuid_injective (j k : nat) : counter_uuid j = counter_uuid k -> j = k.
Proof.
  unfold counter_uuid. simpl. intros H. injection H as H.
  now apply strokes_injective.
Qed.

Lemma few_digits_fit (a : Z) : (Z.abs a < 10 ^ 18)%Z -> (Z.abs a < int_str_bound)%Z.
Proof.
  intros Ha. apply (Z.lt_le_trans _ _ _ Ha).
  apply Z.pow_le_mono_r; unfold int_max_str_digits; lia.
Qed.

Lemma int_str_bound_too_long : (int_str_bound <= Z.abs (10 ^ 4300))%Z.
Proof.
  change (10 ^ 4300)%Z with int_str_bound.
  rewrite Z.abs_eq by (apply Z.lt_le_incl, int_str_bound_pos).
  apply Z.le_refl.
Qed.

Lemma set_then_get_witness :
  exists u : UserInfo.t,
    evalState (_ <- set_user_info unit counter_uuid "Ann" 0 ;;
               get_user_info unit counter_uuid)
              (fresh_session unit None 0 []) = Some u
    /\ UserInfo.name u = "Ann"
    /\ UserInfo.age u = Some 0%Z.
Proof.
  apply (set_then_get unit counter_uuid "Ann" 0 (fresh_session unit None 0 [])).
  discriminate.
Defined.

Lemma returned_ids_fresh_witness :
  let w := execState (set_user_info unit counter_uuid "Ann" 30)
                     (fresh_session unit None 0 []) in
  NoDup (returned_ids
           (evalState (calls unit counter_uuid
                             [SetUserData "Ann" 30; GetUserInfo; GetUserData;
                              GetUserInfo; SetUserInfo "Ann" 30])
                      (fresh_session unit None 0 [])))
  /\ UserInfo.id (UserInfo.mk (counter_uuid 1) "Ann" (Some 30%Z))
     <> UserInfo.id (UserInfo.mk (counter_uuid 2) "Ann" (Some 30%Z)).
Proof.
  intros w.
  destruct (returned_ids_fresh unit counter_uuid counter_uuid_injective)
    as [Hall Htwo].
  split.
  - apply Hall.
  - apply (Htwo w); reflexivity.
Defined.

Lemma age_never_None_witness :
  let w := execState (call unit counter_uuid (SetUserData "Ann" 30))
                     (fresh_session unit None 0 []) in
  (exists a : Z, UserData.age (userdata w) = Some a)
  /\ is_not_None (UserData.age (userdata w)) = true
  /\ truthy (UserData.name (userdata w)) && is_not_None (UserData.age (userdata w))
     = truthy (UserData.name (userdata w))
  /\ (evalState (get_user_info unit counter_uuid) w <> None
      <-> UserData.name (userdata w) <> "").
Proof.
  apply (age_never_None unit counter_uuid).
  apply reachable_call. apply reachable_fresh.
Defined.

Lemma empty_name_reads_unset_witness :
  let w := fresh_session unit None 0 [] in
  let w' := execState (calls unit counter_uuid
                             [GetUserData; LookupWeather "Oslo"; GetUserInfo])
                      (execState (set_user_info unit counter_uuid "" 41) w) in
  evalState (set_user_info unit counter_uuid "" 41) w
    = UserInfo.mk (counter_uuid (uuid_calls w)) "" (Some 41%Z)
  /\ evalState (set_user_data unit counter_uuid "" 41) w =
       (if (Z.abs 41 <? int_str_bound)%Z
        then Returns ("Okay, now I will remember your name is  and you are "
                      ++ decimal 41 ++ " year old.")
        else Raises ValueError)
  /\ execState (set_user_data unit counter_uuid "" 41) w
     = execState (set_user_info unit counter_uuid "" 41) w
  /\ evalState (get_user_info unit counter_uuid) w' = None
  /\ evalState (get_user_data unit counter_uuid) w' =
       Returns "I don't know your name. Please introduce your name and your age".
Proof.
  apply (empty_name_reads_unset unit counter_uuid 41 (fresh_session unit None 0 [])
           [GetUserData; LookupWeather "Oslo"; GetUserInfo]).
  repeat constructor.
Defined.

Lemma get_after_history_witness :
  let os := [SetUserData "Ann" 30; GetUserData; SetUserInfo "Bea" 0;
             LookupWeather "Oslo"; GetUserInfo] in
  let w := fresh_session unit None 0 [] in
  let w' := execState (calls unit counter_uuid os) w in
  userdata w' = UserData.mk (UserData.ctx (userdata w)) "Bea" (Some 0%Z)
  /\ evalState (get_user_info unit counter_uuid) w' =
     if truthy "Bea"
     then Some (UserInfo.mk (counter_uuid (uuid_calls w')) "Bea" (Some 0%Z))
     else None.
Proof.
  apply (get_after_history unit counter_uuid
           [SetUserData "Ann" 30; GetUserData; SetUserInfo "Bea" 0;
            LookupWeather "Oslo"; GetUserInfo]
           "Bea" 0 (fresh_session unit None 0 [])).
  reflexivity.
Defined.

Lemma set_user_data_then_get_user_data_witness :
  evalState (_ <- set_user_data unit counter_uuid "Ann" (-3) ;;
             get_user_data unit counter_uuid)
            (fresh_session unit None 0 [])
  = Returns ("Your name: " ++ "Ann" ++ " and your age: " ++ decimal (-3)).
Proof.
  apply (set_user_data_then_get_user_data unit counter_uuid "Ann" (-3)
           (fresh_session unit None 0 [])).
  - discriminate.
  - apply few_digits_fit. reflexivity.
Defined.

Lemma reads_do_not_disturb_witness :
  let os := [GetUserData; LookupWeather "Oslo"; GetUserInfo] in
  let w := execState (set_user_data unit counter_uuid "Ann" 30)
                     (fresh_session unit None 0 []) in
  let w' := execState (calls unit counter_uuid os) w in
  evalState (get_user_data unit counter_uuid) w'
    = evalState (get_user_data unit counter_uuid) w
  /\ option_map (fun u => (UserInfo.name u, UserInfo.age u))
                (evalState (get_user_info unit counter_uuid) w')
     = option_map (fun u => (UserInfo.name u, UserInfo.age u))
                  (evalState (get_user_info unit counter_uuid) w).
Proof.
  apply (reads_do_not_disturb unit counter_uuid
           [GetUserData; LookupWeather "Oslo"; GetUserInfo]
           (execState (set_user_data unit counter_uuid "Ann" 30)
                      (fresh_session unit None 0 []))).
  repeat constructor.
Defined.



(** C6 fails as stated: after [set_user_info("Ann", 10 ^ 4300)] on a fresh
    session, [get_user_info] returns a record, and [get_user_data] returns
    neither of its two texts but raises [ValueError]. *)
Lemma get_user_data_long_age_raises :
  let w := execState (set_user_info unit counter_uuid "Ann" (10 ^ 4300))
                     (fresh_session unit None 0 []) in
  evalState (get_user_info unit counter_uuid) w
    = Some (UserInfo.mk (counter_uuid 1) "Ann" (Some (10 ^ 4300)%Z))
  /\ evalState (get_user_data unit counter_uuid) w = Raises ValueError.
Proof.
  cbv zeta. unfold evalState, execState.
  rewrite run_set_user_info, run_get_user_info, run_get_user_data.
  cbn [fst snd userdata uuid_calls UserData.name UserData.age truthy
       is_not_None andb format_opt_int fresh_session].
  rewrite (str_int_too_long _ int_str_bound_too_long).
  split; reflexivity.
Qed.

Lemma long_age_is_stored_then_raises_witness :
  evalState (set_user_data unit counter_uuid "Ann" (10 ^ 4300))
            (fresh_session unit None 0 [])
    = Raises ValueError
  /\ userdata (execState (set_user_data unit counter_uuid "Ann" (10 ^ 4300))
                         (fresh_session unit None 0 []))
     = UserData.mk (UserData.ctx (userdata (fresh_session unit None 0 [])))
                   "Ann" (Some (10 ^ 4300)%Z)
  /\ evalState (get_user_info unit counter_uuid)
               (execState (set_user_data unit counter_uuid "Ann" (10 ^ 4300))
                          (fresh_session unit None 0 []))
     = Some (UserInfo.mk
               (counter_uuid
                  (uuid_calls (execState (set_user_data unit counter_uuid "Ann" (10 ^ 4300))
                                         (fresh_session unit None 0 []))))
               "Ann" (Some (10 ^ 4300)%Z))
  /\ evalState (get_user_data unit counter_uuid)
               (execState (set_user_data unit counter_uuid "Ann" (10 ^ 4300))
                          (fresh_session unit None 0 []))
     = Raises ValueError.
Proof.
  pose proof (long_age_is_stored_then_raises unit counter_uuid "Ann" (10 ^ 4300)
                (fresh_session unit None 0 []) int_str_bound_too_long) as H.
  cbv zeta in H. destruct H as (Hraise & Hstored & Hreads).
  assert (Hname : "Ann" <> "") by discriminate.
  destruct (Hreads Hname) as [Hinfo Hdata].
  exact (conj Hraise (conj Hstored (conj Hinfo Hdata))).
Defined.
